(** * GOMX-3 beacon parser ([beacon.py]): model and verified properties

    The parser is the constructor of the Python class [Beacon0]: it takes a
    byte string and two flags ([csp]: a 4-byte CSP header precedes the
    beacon, [crc]: a 4-byte CRC follows it), validates the frame and fills
    the dictionary [self.beacon] with five groups of telemetry fields.

    The development has these parts:
    - [Py]: the few Python notions the parser relies on (exceptions, byte
      slices, float division);
    - [Struct]: the part of Python's [struct] module that the parser calls
      (format strings over the standard-size byte orders [<] and [>]);
    - [Beacon0]: the constructor itself, block by block as in the source;
    - [Wire]: the words in which the properties are stated (typed failures,
      fields at byte offsets, routing bits, the layout of the blocks);
    - lemmas relating the two, then the properties and concrete frames. *)

From Stdlib Require Import ZArith Strings.Byte Ascii String PrimFloat Uint63 FloatOps.
From stdpp Require Import gmap strings list fin_maps.

#[local] Set Warnings "-clear-no-such-hyp".

(** ** Python preliminaries *)

Module Py.

(** The exceptions that can leave the constructor. [StructError] is
    [struct.error]; [ValueError] and [IndexError] are what a tuple
    assignment of the wrong arity and an index into an empty tuple raise
    (the formats used fix arity and kinds, so neither is ever raised). *)
Inductive exn :=
| TypeError (msg : string)
| StructError
| ValueError
| IndexError.

Inductive result (A : Type) :=
| Return (a : A)
| Raise (e : exn).
Arguments Return {A} a.
Arguments Raise {A} e.

#[export] Instance result_ret : MRet result := @Return.
#[export] Instance result_bind : MBind result := fun A B f m =>
  match m with
  | Return a => f a
  | Raise e => Raise e
  end.

(** A byte as the integer [0 .. 255] Python sees when indexing [bytes]. *)
Definition byte_val (b : byte) : Z := Z.of_N (Byte.to_N b).

(** [buf[off : off + n]]. Python slices never fail: out-of-range bounds
    are clamped, as [take] and [drop] do. *)
Definition slice (buf : list byte) (off n : nat) : list byte :=
  take n (drop off buf).

(** [buf[:-n]] for a positive literal [n]: a negative stop counts from
    the end and is clamped at the start of the sequence. *)
Definition strip_tail (n : nat) (buf : list byte) : list byte :=
  take (length buf - n) buf.

(** Conversion of a Python [int] to a [float] (a binary64); exact for
    magnitudes below [2^53], which covers every integer the parser
    divides. *)
Definition float_of_int (z : Z) : float :=
  if (z <? 0)%Z
  then PrimFloat.opp (PrimFloat.of_uint63 (Uint63.of_Z (- z)))
  else PrimFloat.of_uint63 (Uint63.of_Z z).

(** [a / b] for an [int] [a] and a non-zero [float] [b]: the integer is
    converted and the quotient is the IEEE-754 binary64 division. *)
Definition truediv (a : Z) (b : float) : float :=
  PrimFloat.div (float_of_int a) b.

End Py.
Import Py.

(** ** The [struct] module *)

Module Struct.

Local Open Scope Z_scope.

(** Byte order of a format: [<] and [>], both with standard sizes and no
    alignment. *)
Inductive byteorder := LittleEndian | BigEndian.

(** The format characters that occur in the parser. *)
Inductive code :=
| UChar    (* B: unsigned char, 1 byte *)
| UShort   (* H: unsigned short, 2 bytes *)
| Short    (* h: short, 2 bytes *)
| UInt     (* I: unsigned int, 4 bytes *)
| Float    (* f: float, 4 bytes, IEEE-754 binary32 *)
| Chars.   (* s: char[], the count is the length *)

Record format := Format { order : byteorder; items : list (nat * code) }.

(** Values found in the tuple [unpack] returns. *)
Inductive value :=
| VInt (z : Z)
| VFloat (f : float)
| VBytes (b : list byte).

(** *** Format strings *)

Definition order_of (c : ascii) : option byteorder :=
  match c with
  | "<"%char => Some LittleEndian
  | ">"%char => Some BigEndian
  | _ => None
  end.

Definition code_of (c : ascii) : option code :=
  match c with
  | "B"%char => Some UChar
  | "H"%char => Some UShort
  | "h"%char => Some Short
  | "I"%char => Some UInt
  | "f"%char => Some Float
  | "s"%char => Some Chars
  | _ => None
  end.

Definition digit_of (c : ascii) : option nat :=
  let n := nat_of_ascii c in
  if bool_decide (48 ≤ n ≤ 57)%nat then Some (n - 48)%nat else None.

(** Items are an optional decimal repeat count followed by a format
    character; a count with nothing after it is an error. *)
Fixpoint parse_items (cs : list ascii) (count : option nat)
  : option (list (nat * code)) :=
  match cs with
  | [] => match count with None => Some [] | Some _ => None end
  | c :: cs' =>
      match digit_of c with
      | Some d => parse_items cs' (Some (10 * default 0 count + d)%nat)
      | None =>
          cd ← code_of c;
          rest ← parse_items cs' None;
          Some ((default 1%nat count, cd) :: rest)
      end
  end.

Definition parse (fmt : string) : option format :=
  match list_ascii_of_string fmt with
  | c :: cs => o ← order_of c; its ← parse_items cs None; Some (Format o its)
  | [] => None
  end.

(** *** Sizes *)

Definition code_size (c : code) : nat :=
  match c with
  | UChar | Chars => 1
  | UShort | Short => 2
  | UInt | Float => 4
  end.

Definition calcsize (its : list (nat * code)) : nat :=
  foldr (fun it acc => (it.1 * code_size it.2 + acc)%nat) 0%nat its.

(** *** Decoding one field *)

(** Most significant byte first. *)
Definition uint_be (bs : list byte) : Z :=
  foldl (fun acc b => 256 * acc + byte_val b) 0 bs.

(** Least significant byte first. *)
Definition uint_le (bs : list byte) : Z :=
  foldr (fun b acc => byte_val b + 256 * acc) 0 bs.

Definition uint (o : byteorder) (bs : list byte) : Z :=
  match o with
  | LittleEndian => uint_le bs
  | BigEndian => uint_be bs
  end.

(** Two's complement reading of an unsigned [n]-byte quantity. *)
Definition to_signed (n : nat) (u : Z) : Z :=
  if 2 ^ (8 * Z.of_nat n - 1) <=? u then u - 2 ^ (8 * Z.of_nat n) else u.

(** The binary64 value of an IEEE-754 binary32 bit pattern (the
    conversion is exact; every NaN becomes the NaN). *)
Definition float_of_binary32 (bits : Z) : float :=
  let sign := Z.testbit bits 31 in
  let e := Z.land (Z.shiftr bits 23) 255 in
  let m := Z.land bits 8388607 in
  let mag :=
    if e =? 255 then (if m =? 0 then PrimFloat.infinity else PrimFloat.nan)
    else if e =? 0 then Z.ldexp (float_of_int m) (-149)
    else Z.ldexp (float_of_int (m + 8388608)) (e - 150) in
  if sign then PrimFloat.opp mag else mag.

(** One value of a numeric code, from exactly [code_size c] bytes. *)
Definition unpack_one (o : byteorder) (c : code) (bs : list byte) : value :=
  match c with
  | UChar | UShort | UInt => VInt (uint o bs)
  | Short => VInt (to_signed 2 (uint o bs))
  | Float => VFloat (float_of_binary32 (uint o bs))
  | Chars => VBytes bs
  end.

(** *** Walking the format *)

(** [n] consecutive values of code [c] starting at offset [off]. *)
Fixpoint unpack_rep (o : byteorder) (c : code) (n : nat)
    (buf : list byte) (off : nat) : list value :=
  match n with
  | O => []
  | S n' =>
      unpack_one o c (slice buf off (code_size c))
        :: unpack_rep o c n' buf (off + code_size c)
  end.

Fixpoint unpack_items (o : byteorder) (its : list (nat * code))
    (buf : list byte) (off : nat) : list value :=
  match its with
  | [] => []
  | (n, Chars) :: its' =>
      VBytes (slice buf off n) :: unpack_items o its' buf (off + n)
  | (n, c) :: its' =>
      unpack_rep o c n buf off
        ++ unpack_items o its' buf (off + n * code_size c)
  end.

(** [struct.unpack(fmt, buf)]: the buffer must have exactly the size the
    format describes, otherwise [struct.error] is raised. *)
Definition unpack_format (f : format) (buf : list byte) : result (list value) :=
  if bool_decide (length buf = calcsize (items f))
  then Return (unpack_items (order f) (items f) buf 0)
  else Raise StructError.

Definition unpack (fmt : string) (buf : list byte) : result (list value) :=
  match parse fmt with
  | Some f => unpack_format f buf
  | None => Raise StructError
  end.

End Struct.

(** ** Test vectors *)

Module Hex.

Definition nibble (c : ascii) : N :=
  let n := N_of_ascii c in
  if (n <? 58)%N then (n - 48)%N else (n - 87)%N.

(** Bytes written as lowercase hexadecimal digits. *)
Fixpoint bytes (cs : list ascii) : list byte :=
  match cs with
  | hi :: lo :: cs' =>
      default Byte.x00 (Byte.of_N (16 * nibble hi + nibble lo)) :: bytes cs'
  | _ => []
  end.

Definition of_string (s : string) : list byte := bytes (list_ascii_of_string s).

End Hex.

(** ** The parser *)

Module Beacon0.

Import Struct.
Local Open Scope Z_scope.

Definition BEACON0_LENGTH : nat := 136.
Definition BEACON0_SOURCE : Z := 1.
Definition BEACON0_DEST : Z := 10.
Definition BEACON0_DPORT : Z := 30.

(** Values stored in the field groups: integers, floats and tuples of
    integers. *)
Inductive pyval :=
| PInt (z : Z)
| PFloat (f : float)
| PTuple (l : list Z).

(** A dictionary display [{k1: v1, k2: v2, ...}]: entries are stored from
    left to right, a later entry replacing an earlier one under the same
    key. *)
Definition dict {V : Type} (kvs : list (string * V)) : gmap string V :=
  foldl (fun m kv => <[kv.1 := kv.2]> m) ∅ kvs.

(** The object under construction has the single attribute [beacon]. *)
Record t := { beacon : gmap string (gmap string pyval) }.

Definition fields (self : t) : gmap string (gmap string pyval) := beacon self.

(** *** The five blocks of [__init__] that fill the groups *)

(** EPS (lines 98-133). *)
Definition eps_group (eps : list byte) : result (gmap string pyval) :=
  vs ← unpack ">I16H6hB" eps;
  match vs with
  | [VInt eps_timestamp;
     VInt eps_vboost_0; VInt eps_vboost_1; VInt eps_vboost_2;
     VInt eps_vbatt;
     VInt eps_curout_0; VInt eps_curout_1; VInt eps_curout_2; VInt eps_curout_3;
     VInt eps_curout_4; VInt eps_curout_5; VInt eps_curout_6;
     VInt eps_curin_0; VInt eps_curin_1; VInt eps_curin_2;
     VInt eps_cursun; VInt eps_cursys;
     VInt eps_temp_0; VInt eps_temp_1; VInt eps_temp_2;
     VInt eps_temp_3; VInt eps_temp_4; VInt eps_temp_5;
     VInt eps_battmode] =>
      Return (dict [
        ("timestamp", PInt eps_timestamp);
        ("vboost", PTuple [eps_vboost_0; eps_vboost_1; eps_vboost_2]);
        ("vbatt", PInt eps_vbatt);
        ("curout", PTuple [eps_curout_0; eps_curout_1; eps_curout_2; eps_curout_3;
                           eps_curout_4; eps_curout_5; eps_curout_6]);
        ("curin", PTuple [eps_curin_0; eps_curin_1; eps_curin_2]);
        ("cursun", PInt eps_cursun);
        ("cursys", PInt eps_cursys);
        ("temp", PTuple [eps_temp_0; eps_temp_1; eps_temp_2;
                         eps_temp_3; eps_temp_4; eps_temp_5]);
        ("battmode", PInt eps_battmode)])
  | _ => Raise ValueError
  end.

(** COM (lines 144-158). *)
Definition com_group (com : list byte) : result (gmap string pyval) :=
  vs ← unpack ">I5h" com;
  match vs with
  | [VInt com_timestamp; VInt com_temp_brd; VInt com_temp_pa;
     VInt com_last_rssi; VInt com_last_rferr; VInt com_bgnd_rssi] =>
      Return (dict [
        ("timestamp", PInt com_timestamp);
        ("temp_brd", PFloat (truediv com_temp_brd 10));
        ("temp_pa", PFloat (truediv com_temp_pa 10));
        ("last_rssi", PInt com_last_rssi);
        ("last_rferr", PInt com_last_rferr);
        ("bgnd_rssi", PInt com_bgnd_rssi)])
  | _ => Raise ValueError
  end.

(** OBC (lines 169-183). *)
Definition obc_group (obc : list byte) : result (gmap string pyval) :=
  vs ← unpack ">I3H2h" obc;
  match vs with
  | [VInt obc_timestamp; VInt obc_cur_gssb1; VInt obc_cur_gssb2;
     VInt obc_cur_flash; VInt obc_temp_a; VInt obc_temp_b] =>
      Return (dict [
        ("timestamp", PInt obc_timestamp);
        ("cur_gssb1", PInt obc_cur_gssb1);
        ("cur_gssb2", PInt obc_cur_gssb2);
        ("cur_flash", PInt obc_cur_flash);
        ("temp_a", PFloat (truediv obc_temp_a 10));
        ("temp_b ", PFloat (truediv obc_temp_b 10))])
  | _ => Raise ValueError
  end.

(** ADCS (lines 197-217). *)
Definition adcs_group (adcs : list byte) : result (gmap string pyval) :=
  vs ← unpack ">I6H2h" adcs;
  match vs with
  | [VInt adcs_timestamp; VInt adcs_cur_gssb1; VInt adcs_cur_gssb2;
     VInt adcs_cur_flash; VInt adcs_cur_pwm; VInt adcs_cur_gps;
     VInt adcs_cur_wde; VInt adcs_temp_a; VInt adcs_temp_b] =>
      Return (dict [
        ("timestamp", PInt adcs_timestamp);
        ("cur_gssb1", PInt adcs_cur_gssb1);
        ("cur_gssb2", PInt adcs_cur_gssb2);
        ("cur_flash", PInt adcs_cur_flash);
        ("cur_pwm", PInt adcs_cur_pwm);
        ("cur_gps", PInt adcs_cur_gps);
        ("cur_wde", PInt adcs_cur_wde);
        ("temp_a", PFloat (truediv adcs_temp_a 10));
        ("temp_b ", PFloat (truediv adcs_temp_b 10))])
  | _ => Raise ValueError
  end.

(** ADS-B (lines 235-263). *)
Definition adsb_group (adsb : list byte) : result (gmap string pyval) :=
  vs ← unpack ">I7HI2f2I" adsb;
  match vs with
  | [VInt adsb_timestamp; VInt adsb_cur5v0brd; VInt adsb_cur3v3brd;
     VInt adsb_cur3v3sd; VInt adsb_cur1v2; VInt adsb_cur2v5;
     VInt adsb_cur3v3fpga; VInt adsb_cur3v3adc; VInt adsb_last_icao;
     VFloat adsb_last_lat; VFloat adsb_last_lon;
     VInt adsb_last_alt; VInt adsb_last_time] =>
      Return (dict [
        ("timestamp", PInt adsb_timestamp);
        ("cur5v0brd", PInt adsb_cur5v0brd);
        ("cur3v3brd", PInt adsb_cur3v3brd);
        ("cur3v3sd", PInt adsb_cur3v3sd);
        ("cur1v2", PInt adsb_cur1v2);
        ("cur2v5", PInt adsb_cur2v5);
        ("cur3v3fpga", PInt adsb_cur3v3fpga);
        ("cur3v3adc", PInt adsb_cur3v3adc);
        ("last_icao", PInt adsb_last_icao);
        ("last_lat", PFloat adsb_last_lat);
        ("last_lon", PFloat adsb_last_lon);
        ("last_alt", PInt adsb_last_alt);
        ("last_time ", PInt adsb_last_time)])
  | _ => Raise ValueError
  end.

(** *** The header block (lines 40-52) *)

Definition split_header (data : list byte) (csp : bool) : result (list byte) :=
  if csp then
    let hdata := take 4 data in
    let bdata := drop 4 data in
    vs ← unpack "<I" hdata;
    match vs with
    | VInt header :: _ =>
        let src := Z.land (Z.shiftr header 25) 0x1f in
        let dst := Z.land (Z.shiftr header 20) 0x1f in
        let dport := Z.land (Z.shiftr header 14) 0x3f in
        if bool_decide (src ≠ BEACON0_SOURCE) || bool_decide (dst ≠ BEACON0_DEST)
           || bool_decide (dport ≠ BEACON0_DPORT)
        then Raise (TypeError "Beacon destination does not match")
        else Return bdata
    | _ => Raise IndexError
    end
  else Return data.

(** *** [__init__(self, data, csp, crc)] *)

Definition init (data : list byte) (csp crc : bool) : result t :=
  bdata ← split_header data csp;
  let bdata := if crc then strip_tail 4 bdata else bdata in
  if bool_decide (length bdata ≠ BEACON0_LENGTH)
  then Raise (TypeError "Length does not match beacon 0")
  else
    vs ← unpack "<B49s14s14s20s38s" bdata;
    match vs with
    | [VInt btype; VBytes eps; VBytes com; VBytes obc; VBytes adcs; VBytes adsb] =>
        if bool_decide (btype ≠ 0)
        then Raise (TypeError "Unknown beacon type")
        else
          let beacon := ∅ in
          g ← eps_group eps; let beacon := <["eps" := g]> beacon in
          g ← com_group com; let beacon := <["com" := g]> beacon in
          g ← obc_group obc; let beacon := <["obc" := g]> beacon in
          g ← adcs_group adcs; let beacon := <["adcs" := g]> beacon in
          g ← adsb_group adsb; let beacon := <["adsb" := g]> beacon in
          Return {| beacon := beacon |}
    | _ => Raise ValueError
    end.

(** Decoding a frame is constructing the object and asking for its
    [fields()]. *)
Definition decode (data : list byte) (csp crc : bool)
  : result (gmap string (gmap string pyval)) :=
  self ← init data csp crc; Return (fields self).

End Beacon0.

(** ** Vocabulary of the specification *)

Module Wire.

Import Struct.
Local Open Scope Z_scope.

(** The three typed failures are the three [TypeError]s of the
    constructor, told apart by their message. *)
Definition RoutingMismatch : exn := TypeError "Beacon destination does not match".
Definition LengthMismatch : exn := TypeError "Length does not match beacon 0".
Definition UnsupportedType : exn := TypeError "Unknown beacon type".

(** Byte [i] of a frame as a number, [0] past the end. *)
Definition octet (p : list byte) (i : nat) : Z :=
  from_option byte_val 0 (p !! i).

(** Big-endian fields at byte offset [off]. *)
Definition be_u16 (p : list byte) (off : nat) : Z :=
  2 ^ 8 * octet p off + octet p (off + 1).

Definition be_u32 (p : list byte) (off : nat) : Z :=
  2 ^ 24 * octet p off + 2 ^ 16 * octet p (off + 1)
  + 2 ^ 8 * octet p (off + 2) + octet p (off + 3).

Definition be_i16 (p : list byte) (off : nat) : Z :=
  let u := be_u16 p off in if u <? 2 ^ 15 then u else u - 2 ^ 16.

Definition be_f32 (p : list byte) (off : nat) : float :=
  float_of_binary32 (be_u32 p off).

(** The little-endian 32-bit word at the start of a frame. *)
Definition le_u32 (p : list byte) : Z :=
  octet p 0 + 2 ^ 8 * octet p 1 + 2 ^ 16 * octet p 2 + 2 ^ 24 * octet p 3.

(** Bits [lo .. lo + n - 1] of a word. *)
Definition bits (w : Z) (lo n : Z) : Z := (w / 2 ^ lo) mod 2 ^ n.

(** Source, destination and destination port of a header word. *)
Definition routing (w : Z) : Z * Z * Z := (bits w 25 5, bits w 20 5, bits w 14 6).

(** The header of a frame, when the frame is long enough to hold one. *)
Definition header (data : list byte) : option Z :=
  if bool_decide (4 ≤ length data)%nat then Some (le_u32 data) else None.

(** The header is there and is addressed to the beacon receiver. *)
Definition routing_ok (data : list byte) : Prop :=
  ∃ w, header data = Some w ∧ routing w = (1, 10, 30).

(** What is left of the input once the configured header and trailer are
    removed. *)
Definition payload (data : list byte) (csp crc : bool) : list byte :=
  let bdata := if csp then drop 4 data else data in
  if crc then strip_tail 4 bdata else bdata.

(** Kinds of values in a group. *)
Inductive shape := ShInt | ShFloat | ShTuple (n : nat).

Definition shape_of (v : Beacon0.pyval) : shape :=
  match v with
  | Beacon0.PInt _ => ShInt
  | Beacon0.PFloat _ => ShFloat
  | Beacon0.PTuple l => ShTuple (length l)
  end.

(** Python's [str.isspace] on the ASCII range. *)
Definition is_space (c : ascii) : bool :=
  let n := nat_of_ascii c in
  bool_decide (n = 32 ∨ 9 ≤ n ≤ 13 ∨ 28 ≤ n ≤ 31)%nat.

Definition trailing_space (s : string) : bool :=
  from_option is_space false (last (list_ascii_of_string s)).

(** *** Layout of the five blocks

    Offsets are relative to the start of the block; every multi-byte
    field is big-endian. *)

Import Beacon0.

Definition eps_layout (blk : list byte) : gmap string pyval :=
  dict [
    ("timestamp", PInt (be_u32 blk 0));
    ("vboost", PTuple [be_u16 blk 4; be_u16 blk 6; be_u16 blk 8]);
    ("vbatt", PInt (be_u16 blk 10));
    ("curout", PTuple [be_u16 blk 12; be_u16 blk 14; be_u16 blk 16; be_u16 blk 18;
                       be_u16 blk 20; be_u16 blk 22; be_u16 blk 24]);
    ("curin", PTuple [be_u16 blk 26; be_u16 blk 28; be_u16 blk 30]);
    ("cursun", PInt (be_u16 blk 32));
    ("cursys", PInt (be_u16 blk 34));
    ("temp", PTuple [be_i16 blk 36; be_i16 blk 38; be_i16 blk 40;
                     be_i16 blk 42; be_i16 blk 44; be_i16 blk 46]);
    ("battmode", PInt (octet blk 48))].

Definition com_layout (blk : list byte) : gmap string pyval :=
  dict [
    ("timestamp", PInt (be_u32 blk 0));
    ("temp_brd", PFloat (truediv (be_i16 blk 4) 10));
    ("temp_pa", PFloat (truediv (be_i16 blk 6) 10));
    ("last_rssi", PInt (be_i16 blk 8));
    ("last_rferr", PInt (be_i16 blk 10));
    ("bgnd_rssi", PInt (be_i16 blk 12))].

Definition obc_layout (blk : list byte) : gmap string pyval :=
  dict [
    ("timestamp", PInt (be_u32 blk 0));
    ("cur_gssb1", PInt (be_u16 blk 4));
    ("cur_gssb2", PInt (be_u16 blk 6));
    ("cur_flash", PInt (be_u16 blk 8));
    ("temp_a", PFloat (truediv (be_i16 blk 10) 10));
    ("temp_b ", PFloat (truediv (be_i16 blk 12) 10))].

Definition adcs_layout (blk : list byte) : gmap string pyval :=
  dict [
    ("timestamp", PInt (be_u32 blk 0));
    ("cur_gssb1", PInt (be_u16 blk 4));
    ("cur_gssb2", PInt (be_u16 blk 6));
    ("cur_flash", PInt (be_u16 blk 8));
    ("cur_pwm", PInt (be_u16 blk 10));
    ("cur_gps", PInt (be_u16 blk 12));
    ("cur_wde", PInt (be_u16 blk 14));
    ("temp_a", PFloat (truediv (be_i16 blk 16) 10));
    ("temp_b ", PFloat (truediv (be_i16 blk 18) 10))].

Definition adsb_layout (blk : list byte) : gmap string pyval :=
  dict [
    ("timestamp", PInt (be_u32 blk 0));
    ("cur5v0brd", PInt (be_u16 blk 4));
    ("cur3v3brd", PInt (be_u16 blk 6));
    ("cur3v3sd", PInt (be_u16 blk 8));
    ("cur1v2", PInt (be_u16 blk 10));
    ("cur2v5", PInt (be_u16 blk 12));
    ("cur3v3fpga", PInt (be_u16 blk 14));
    ("cur3v3adc", PInt (be_u16 blk 16));
    ("last_icao", PInt (be_u32 blk 18));
    ("last_lat", PFloat (be_f32 blk 22));
    ("last_lon", PFloat (be_f32 blk 26));
    ("last_alt", PInt (be_u32 blk 30));
    ("last_time ", PInt (be_u32 blk 34))].

(** The record of a 136-byte payload: the type byte, then the five
    blocks of 49, 14, 14, 20 and 38 bytes. *)
Definition record (p : list byte) : gmap string (gmap string pyval) :=
  dict [
    ("eps", eps_layout (slice p 1 49));
    ("com", com_layout (slice p 50 14));
    ("obc", obc_layout (slice p 64 14));
    ("adcs", adcs_layout (slice p 78 20));
    ("adsb", adsb_layout (slice p 98 38))].

(** Names and kinds of the fields of each group. *)
Definition eps_shape : gmap string shape :=
  dict [("timestamp", ShInt); ("vboost", ShTuple 3); ("vbatt", ShInt);
        ("curout", ShTuple 7); ("curin", ShTuple 3); ("cursun", ShInt);
        ("cursys", ShInt); ("temp", ShTuple 6); ("battmode", ShInt)].

Definition com_shape : gmap string shape :=
  dict [("timestamp", ShInt); ("temp_brd", ShFloat); ("temp_pa", ShFloat);
        ("last_rssi", ShInt); ("last_rferr", ShInt); ("bgnd_rssi", ShInt)].

Definition obc_shape : gmap string shape :=
  dict [("timestamp", ShInt); ("cur_gssb1", ShInt); ("cur_gssb2", ShInt);
        ("cur_flash", ShInt); ("temp_a", ShFloat); ("temp_b ", ShFloat)].

Definition adcs_shape : gmap string shape :=
  dict [("timestamp", ShInt); ("cur_gssb1", ShInt); ("cur_gssb2", ShInt);
        ("cur_flash", ShInt); ("cur_pwm", ShInt); ("cur_gps", ShInt);
        ("cur_wde", ShInt); ("temp_a", ShFloat); ("temp_b ", ShFloat)].

Definition adsb_shape : gmap string shape :=
  dict [("timestamp", ShInt); ("cur5v0brd", ShInt); ("cur3v3brd", ShInt);
        ("cur3v3sd", ShInt); ("cur1v2", ShInt); ("cur2v5", ShInt);
        ("cur3v3fpga", ShInt); ("cur3v3adc", ShInt); ("last_icao", ShInt);
        ("last_lat", ShFloat); ("last_lon", ShFloat); ("last_alt", ShInt);
        ("last_time ", ShInt)].

(** The outcome of the three checks on a payload, in the order length,
    then type tag. *)
Definition validate (p : list byte) : result (gmap string (gmap string pyval)) :=
  if bool_decide (length p = BEACON0_LENGTH) then
    if bool_decide (octet p 0 = 0) then Return (record p)
    else Raise UnsupportedType
  else Raise LengthMismatch.

End Wire.

(** ** Golden frame: the sample of the module's own driver, a beacon
    followed by its CRC, without CSP header. *)

Module Golden.

Definition frame : list byte := Hex.of_string
  "00b9fcfcc40940094c091940cf00ad00410004004400700000000200020003039e0070005b001c001e001e001d001c001c03b9fcfcc401380139ffc5ff95ff95b9fcfcc40000000100000000013eb9fcfcc40002000700000004000e0000013a0139b9fcfcc400c9002800010006001600330018004492e14260473c411cd362000078ffb9fcfcb948b4c6c8".

(** A CSP header from node 1 to node 10, port 30. *)
Definition csp_header : list byte := Hex.of_string "0080a702".

End Golden.

(** ** Exhaustive checks over the signed 16-bit range *)

Module Int16.

Local Open Scope Z_scope.

(** [P] holds of the [n] integers from [z] upwards. *)
Fixpoint all_from (n : nat) (z : Z) (P : Z → bool) : bool :=
  match n with
  | O => true
  | S n' => P z && all_from n' (z + 1) P
  end.

(** [P] holds of every integer from [-32768] to [32767], enumerated by
    high and low byte. *)
Definition all_int16 (P : Z → bool) : bool :=
  all_from 256 0 (fun hi => all_from 256 0 (fun lo => P (256 * hi + lo - 32768))).

(** Python's [(r / 10.0) * 10.0 == r]. *)
Definition scales_back (r : Z) : bool :=
  PrimFloat.eqb (PrimFloat.mul (truediv r 10) 10) (float_of_int r).

(** Python's [-3276.8 <= r / 10.0 <= 3276.7]. *)
Definition in_bounds (r : Z) : bool :=
  PrimFloat.leb (-0x1.999999999999ap+11) (truediv r 10)
  && PrimFloat.leb (truediv r 10) 0x1.9996666666666p+11.

(** Python's [r / 10.0 < (r + 1) / 10.0]. *)
Definition steps_up (r : Z) : bool :=
  PrimFloat.ltb (truediv r 10) (truediv (r + 1) 10).

End Int16.

(** ** Sanity checks of the [struct] model *)

Example parse_eps :
  Struct.parse ">I16H6hB" =
    Some (Struct.Format Struct.BigEndian
            [(1, Struct.UInt); (16, Struct.UShort); (6, Struct.Short); (1, Struct.UChar)]).
Proof. reflexivity. Qed.

Example f32_lat : Struct.float_of_binary32 0x4260473c = 0x1.c08e78p+5%float.
Proof. reflexivity. Qed.

Example unpack_com :
  Struct.unpack ">I5h" (Hex.of_string "b9fcfcc401380139ffc5ff95ff95") =
    Return [Struct.VInt 3120364740; Struct.VInt 312; Struct.VInt 313;
            Struct.VInt (-59); Struct.VInt (-107); Struct.VInt (-107)].
Proof. reflexivity. Qed.

(** ** Lemmas on slices and fields *)

Import Struct Beacon0 Wire.

Section Slices.

Implicit Types (p : list byte) (off n : nat).

Lemma length_slice p off n :
  off + n ≤ length p → length (slice p off n) = n.
Proof. intros H. unfold slice. rewrite length_take, length_drop. lia. Qed.

Lemma slice_cons p off n b :
  p !! off = Some b → slice p off (S n) = b :: slice p (S off) n.
Proof. intros H. unfold slice. by rewrite (drop_S _ _ _ H). Qed.

Lemma slice_nil p off : slice p off 0 = [].
Proof. reflexivity. Qed.

Lemma octet_lookup p i b : p !! i = Some b → octet p i = byte_val b.
Proof. intros H. unfold octet. by rewrite H. Qed.

Lemma octet_slice p off n i :
  i < n → octet (slice p off n) i = octet p (off + i).
Proof.
  intros H. unfold octet, slice.
  by rewrite lookup_take_lt, lookup_drop.
Qed.

Lemma byte_val_range b : (0 ≤ byte_val b < 256)%Z.
Proof.
  unfold byte_val. pose proof (Byte.to_N_bounded b). lia.
Qed.

Lemma octet_range p i : (0 ≤ octet p i < 256)%Z.
Proof.
  unfold octet. destruct (p !! i) as [b|]; simpl; [apply byte_val_range | lia].
Qed.

End Slices.

Section Fields.

Implicit Types (p : list byte) (off : nat).
Local Open Scope Z_scope.

Lemma uint_be_slice1 p off :
  (off + 1 ≤ length p)%nat → uint_be (slice p off 1) = octet p off.
Proof.
  intros H.
  destruct (lookup_lt_is_Some_2 p off) as [b0 H0]; [lia|].
  rewrite (slice_cons _ _ _ _ H0), slice_nil, (octet_lookup _ _ _ H0).
  cbn. lia.
Qed.

Lemma uint_le_slice1 p off :
  (off + 1 ≤ length p)%nat → uint_le (slice p off 1) = octet p off.
Proof.
  intros H.
  destruct (lookup_lt_is_Some_2 p off) as [b0 H0]; [lia|].
  rewrite (slice_cons _ _ _ _ H0), slice_nil, (octet_lookup _ _ _ H0).
  cbn. lia.
Qed.

Lemma uint_be_slice2 p off :
  (off + 2 ≤ length p)%nat → uint_be (slice p off 2) = be_u16 p off.
Proof.
  intros H. unfold be_u16.
  destruct (lookup_lt_is_Some_2 p off) as [b0 H0]; [lia|].
  destruct (lookup_lt_is_Some_2 p (off + 1)) as [b1 H1]; [lia|].
  rewrite (octet_lookup _ _ _ H0), (octet_lookup _ _ _ H1).
  rewrite Nat.add_1_r in H1.
  rewrite (slice_cons _ _ _ _ H0), (slice_cons _ _ _ _ H1), slice_nil.
  cbn. lia.
Qed.

Lemma uint_be_slice4 p off :
  (off + 4 ≤ length p)%nat → uint_be (slice p off 4) = be_u32 p off.
Proof.
  intros H. unfold be_u32.
  destruct (lookup_lt_is_Some_2 p off) as [b0 H0]; [lia|].
  destruct (lookup_lt_is_Some_2 p (off + 1)) as [b1 H1]; [lia|].
  destruct (lookup_lt_is_Some_2 p (off + 2)) as [b2 H2]; [lia|].
  destruct (lookup_lt_is_Some_2 p (off + 3)) as [b3 H3]; [lia|].
  rewrite (octet_lookup _ _ _ H0), (octet_lookup _ _ _ H1),
    (octet_lookup _ _ _ H2), (octet_lookup _ _ _ H3).
  replace (off + 1)%nat with (S off) in H1 by lia.
  replace (off + 2)%nat with (S (S off)) in H2 by lia.
  replace (off + 3)%nat with (S (S (S off))) in H3 by lia.
  rewrite (slice_cons _ _ _ _ H0), (slice_cons _ _ _ _ H1),
    (slice_cons _ _ _ _ H2), (slice_cons _ _ _ _ H3), slice_nil.
  cbn. lia.
Qed.

Lemma uint_le_take4 p :
  (4 ≤ length p)%nat → uint_le (slice (take 4 p) 0 4) = le_u32 p.
Proof.
  intros H. unfold le_u32, slice. rewrite drop_0, take_take. simpl Nat.min.
  destruct p as [|b0 [|b1 [|b2 [|b3 r]]]]; simpl in H; try lia.
  cbn. rewrite take_0. cbn. lia.
Qed.

Lemma le_u32_take p n : (4 ≤ n)%nat → le_u32 (take n p) = le_u32 p.
Proof.
  intros H. unfold le_u32, octet. by rewrite !lookup_take_lt by lia.
Qed.

Lemma be_u16_range p off : 0 ≤ be_u16 p off < 2 ^ 16.
Proof.
  unfold be_u16.
  pose proof (octet_range p off). pose proof (octet_range p (off + 1)). lia.
Qed.

Lemma be_u32_range p off : 0 ≤ be_u32 p off < 2 ^ 32.
Proof.
  unfold be_u32.
  pose proof (octet_range p off). pose proof (octet_range p (off + 1)).
  pose proof (octet_range p (off + 2)). pose proof (octet_range p (off + 3)).
  lia.
Qed.

Lemma be_i16_range p off : - 2 ^ 15 ≤ be_i16 p off < 2 ^ 15.
Proof.
  unfold be_i16. pose proof (be_u16_range p off).
  cbv zeta. destruct (Z.ltb_spec (be_u16 p off) (2 ^ 15)); lia.
Qed.

Lemma to_signed_be_u16 p off : to_signed 2 (be_u16 p off) = be_i16 p off.
Proof.
  unfold to_signed, be_i16. cbv zeta.
  change (2 ^ (8 * Z.of_nat 2 - 1)) with (2 ^ 15).
  change (2 ^ (8 * Z.of_nat 2)) with (2 ^ 16).
  destruct (Z.leb_spec (2 ^ 15) (be_u16 p off)),
    (Z.ltb_spec (be_u16 p off) (2 ^ 15)); lia.
Qed.

(** Fields of a block read at absolute offsets of the payload. *)
Lemma be_u16_slice p a n off :
  (off + 2 ≤ n)%nat → be_u16 (slice p a n) off = be_u16 p (a + off).
Proof.
  intros H. unfold be_u16. rewrite !octet_slice by lia.
  by rewrite Nat.add_assoc.
Qed.

Lemma be_i16_slice p a n off :
  (off + 2 ≤ n)%nat → be_i16 (slice p a n) off = be_i16 p (a + off).
Proof. intros H. unfold be_i16. by rewrite be_u16_slice. Qed.

Lemma be_u32_slice p a n off :
  (off + 4 ≤ n)%nat → be_u32 (slice p a n) off = be_u32 p (a + off).
Proof.
  intros H. unfold be_u32. rewrite !octet_slice by lia.
  by rewrite !Nat.add_assoc.
Qed.

End Fields.

(** ** The formats of the parser *)

Section Formats.

Implicit Types (buf : list byte).
Local Open Scope Z_scope.

Lemma unpack_sized fmt f buf :
  parse fmt = Some f → length buf = calcsize (items f) →
  unpack fmt buf = Return (unpack_items (order f) (items f) buf 0).
Proof.
  intros Hp Hl. unfold unpack, unpack_format. rewrite Hp.
  by rewrite bool_decide_eq_true_2.
Qed.

Lemma unpack_missized fmt f buf :
  parse fmt = Some f → length buf ≠ calcsize (items f) →
  unpack fmt buf = Raise StructError.
Proof.
  intros Hp Hl. unfold unpack, unpack_format. rewrite Hp.
  by rewrite bool_decide_eq_false_2.
Qed.

End Formats.

(** Rewrites the values [unpack] reads from a buffer of known length into
    the fields of [Wire]. *)
Ltac wire_fields :=
  cbn [unpack_items unpack_rep unpack_one uint app code_size Nat.add Nat.mul
       order items];
  rewrite ?uint_be_slice4, ?uint_be_slice2, ?uint_be_slice1, ?uint_le_slice1 by lia;
  rewrite ?to_signed_be_u16.

Section Groups.

Implicit Types (blk : list byte).

Lemma eps_group_layout blk :
  length blk = 49 → eps_group blk = Return (eps_layout blk).
Proof.
  intros H. unfold eps_group.
  erewrite unpack_sized; [|vm_compute; reflexivity|exact H].
  wire_fields. reflexivity.
Qed.

Lemma com_group_layout blk :
  length blk = 14 → com_group blk = Return (com_layout blk).
Proof.
  intros H. unfold com_group.
  erewrite unpack_sized; [|vm_compute; reflexivity|exact H].
  wire_fields. reflexivity.
Qed.

Lemma obc_group_layout blk :
  length blk = 14 → obc_group blk = Return (obc_layout blk).
Proof.
  intros H. unfold obc_group.
  erewrite unpack_sized; [|vm_compute; reflexivity|exact H].
  wire_fields. reflexivity.
Qed.

Lemma adcs_group_layout blk :
  length blk = 20 → adcs_group blk = Return (adcs_layout blk).
Proof.
  intros H. unfold adcs_group.
  erewrite unpack_sized; [|vm_compute; reflexivity|exact H].
  wire_fields. reflexivity.
Qed.

Lemma adsb_group_layout blk :
  length blk = 38 → adsb_group blk = Return (adsb_layout blk).
Proof.
  intros H. unfold adsb_group.
  erewrite unpack_sized; [|vm_compute; reflexivity|exact H].
  wire_fields. reflexivity.
Qed.

End Groups.

(** ** The checks of the constructor *)

Section Checks.

Implicit Types (data p : list byte) (csp crc : bool).
Local Open Scope Z_scope.

Lemma land_shiftr_bits w lo n :
  0 ≤ lo → 0 ≤ n → Z.land (Z.shiftr w lo) (Z.ones n) = bits w lo n.
Proof.
  intros Hlo Hn. unfold bits.
  by rewrite Z.land_ones, Z.shiftr_div_pow2.
Qed.

(** The header block: the routing fields are compared with the expected
    triple, and a header that cannot be read is a [struct.error]. *)
Lemma split_header_csp data :
  split_header data true =
    match header data with
    | None => Raise StructError
    | Some w =>
        if bool_decide (routing w = (1, 10, 30)) then Return (drop 4 data)
        else Raise RoutingMismatch
    end.
Proof.
  unfold header, split_header. case_bool_decide as Hlen.
  - erewrite unpack_sized; [|vm_compute; reflexivity|].
    2:{ rewrite length_take. change (calcsize _) with 4%nat. lia. }
    wire_fields. rewrite uint_le_take4 by done.
    cbn [mbind result_bind]. cbv zeta.
    change 0x1f with (Z.ones 5). change 0x3f with (Z.ones 6).
    rewrite !land_shiftr_bits by lia.
    unfold routing, BEACON0_SOURCE, BEACON0_DEST, BEACON0_DPORT, RoutingMismatch.
    repeat case_bool_decide; simpl; try reflexivity; congruence.
  - erewrite unpack_missized; [reflexivity|vm_compute; reflexivity|].
    rewrite length_take. change (calcsize _) with 4%nat. lia.
Qed.

Lemma split_header_no_csp data : split_header data false = Return data.
Proof. reflexivity. Qed.

(** Past the header block, the outcome depends on the payload alone. *)
Lemma decode_validate data csp crc :
  decode data csp crc =
    match split_header data csp with
    | Return bdata => validate (if crc then strip_tail 4 bdata else bdata)
    | Raise e => Raise e
    end.
Proof.
  unfold decode, init. destruct (split_header data csp) as [bdata|e]; [|done].
  cbn [mbind result_bind]. cbv zeta.
  set (p := if crc then strip_tail 4 bdata else bdata).
  unfold validate, LengthMismatch, UnsupportedType.
  destruct (decide (length p = BEACON0_LENGTH)) as [Hlen|Hlen].
  - rewrite (bool_decide_eq_false_2 (length p ≠ _)) by (intros ?; done).
    rewrite (bool_decide_eq_true_2 (length p = _)) by done.
    unfold BEACON0_LENGTH in Hlen.
    erewrite unpack_sized; [|vm_compute; reflexivity|exact Hlen].
    wire_fields. cbn [mbind result_bind].
    destruct (decide (octet p 0 = 0)) as [Htag|Htag].
    + rewrite (bool_decide_eq_false_2 (octet p 0 ≠ 0)) by (intros ?; done).
      rewrite (bool_decide_eq_true_2 (octet p 0 = 0)) by done.
      rewrite eps_group_layout, com_group_layout, obc_group_layout,
        adcs_group_layout, adsb_group_layout by (apply length_slice; lia).
      reflexivity.
    + rewrite (bool_decide_eq_true_2 (octet p 0 ≠ 0)) by done.
      by rewrite (bool_decide_eq_false_2 (octet p 0 = 0)).
  - rewrite (bool_decide_eq_true_2 (length p ≠ _)) by done.
    by rewrite (bool_decide_eq_false_2 (length p = _)).
Qed.

Lemma split_header_payload data csp crc bdata :
  split_header data csp = Return bdata →
  (if crc then strip_tail 4 bdata else bdata) = payload data csp crc.
Proof.
  unfold payload. destruct csp.
  - rewrite split_header_csp.
    destruct (header data) as [w|]; [|done].
    case_bool_decide; [|done]. by intros [= <-].
  - rewrite split_header_no_csp. by intros [= <-].
Qed.

(** A header that passes the routing check is stripped. *)
Lemma split_header_ok data csp :
  (csp = true → routing_ok data) →
  split_header data csp = Return (if csp then drop 4 data else data).
Proof.
  intros H. destruct csp; [|done].
  destruct H as (w & Hw & Hr); [done|].
  by rewrite split_header_csp, Hw, bool_decide_eq_true_2.
Qed.

Lemma decode_routing_ok data csp crc :
  (csp = true → routing_ok data) →
  decode data csp crc = validate (payload data csp crc).
Proof.
  intros H. by rewrite decode_validate, split_header_ok.
Qed.

(** A stripped payload of the right length implies a readable header. *)
Lemma payload_length_header data crc :
  length (payload data true crc) = BEACON0_LENGTH → is_Some (header data).
Proof.
  unfold payload, header, strip_tail, BEACON0_LENGTH. intros H.
  rewrite bool_decide_eq_true_2; [done|].
  destruct crc; [rewrite length_take in H|]; rewrite length_drop in H; lia.
Qed.

(** The only exceptions that leave the decoder: [ValueError] and
    [IndexError] never do, and [struct.error] only for a header that cannot
    be read. *)
Lemma decode_raises data csp crc e :
  decode data csp crc = Raise e →
  (e = StructError ∧ csp = true ∧ (length data < 4)%nat)
  ∨ e = RoutingMismatch ∨ e = LengthMismatch ∨ e = UnsupportedType.
Proof.
  rewrite decode_validate. destruct csp.
  - rewrite split_header_csp. unfold header, validate.
    repeat case_bool_decide; intros [= <-]; auto.
    left. repeat split. lia.
  - rewrite split_header_no_csp. unfold validate.
    repeat case_bool_decide; intros [= <-]; auto.
Qed.

Lemma typed_failures_distinct :
  RoutingMismatch ≠ LengthMismatch ∧ RoutingMismatch ≠ UnsupportedType
  ∧ LengthMismatch ≠ UnsupportedType
  ∧ StructError ≠ RoutingMismatch ∧ StructError ≠ LengthMismatch
  ∧ StructError ≠ UnsupportedType.
Proof. repeat split; discriminate. Qed.

End Checks.

(** ** Dictionary displays *)

Section Dict.

Context {V : Type}.
Implicit Types (kvs : list (string * V)) (m : gmap string V) (k : string).

Lemma foldl_insert_lookup_Some kvs m k v :
  foldl (fun m kv => <[kv.1 := kv.2]> m) m kvs !! k = Some v →
  (k, v) ∈ kvs ∨ m !! k = Some v.
Proof.
  revert m. induction kvs as [|[k0 v0] kvs IH]; intros m; simpl; [by right|].
  intros [Hin|Hm]%IH.
  - left. by apply list_elem_of_further.
  - apply lookup_insert_Some in Hm as [[<- <-]|[_ Hm]]; [left|by right].
    apply list_elem_of_here.
Qed.

Lemma dict_lookup_Some kvs k v : dict kvs !! k = Some v → (k, v) ∈ kvs.
Proof.
  intros [H|H]%foldl_insert_lookup_Some; [done|].
  by rewrite lookup_empty in H.
Qed.

Lemma foldl_insert_dom kvs m :
  dom (foldl (fun m kv => <[kv.1 := kv.2]> m) m kvs) = list_to_set kvs.*1 ∪ dom m.
Proof.
  revert m. induction kvs as [|[k0 v0] kvs IH]; intros m; simpl.
  - set_solver.
  - rewrite IH, dom_insert_L. set_solver.
Qed.

Lemma dict_dom kvs : dom (dict kvs) = list_to_set kvs.*1.
Proof. unfold dict. rewrite foldl_insert_dom, dom_empty_L. set_solver. Qed.

End Dict.

(** ** What a successful decode tells *)

Section Success.

Implicit Types (data : list byte) (csp crc : bool).

Lemma validate_Return p rec :
  validate p = Return rec →
  length p = BEACON0_LENGTH ∧ octet p 0 = 0%Z ∧ rec = record p.
Proof.
  unfold validate. repeat case_bool_decide; try done.
  by intros [= <-].
Qed.

Lemma decode_Return data csp crc rec :
  decode data csp crc = Return rec →
  length (payload data csp crc) = BEACON0_LENGTH
  ∧ octet (payload data csp crc) 0 = 0%Z
  ∧ rec = record (payload data csp crc).
Proof.
  rewrite decode_validate.
  destruct (split_header data csp) as [bdata|e] eqn:Hh; [|done].
  rewrite (split_header_payload _ _ crc _ Hh). apply validate_Return.
Qed.

Lemma record_groups p name g :
  record p !! name = Some g →
  (name, g) ∈ [("eps", eps_layout (slice p 1 49));
               ("com", com_layout (slice p 50 14));
               ("obc", obc_layout (slice p 64 14));
               ("adcs", adcs_layout (slice p 78 20));
               ("adsb", adsb_layout (slice p 98 38))].
Proof. apply dict_lookup_Some. Qed.

End Success.

(** ** Properties of the decoder *)

Section Properties.

Implicit Types (data : list byte) (csp crc : bool).
Local Open Scope Z_scope.

(** C1. A frame whose header (when one is configured) carries the routing
    fields (1, 10, 30) and whose payload, once header and trailer are
    stripped, has exactly 136 bytes and type byte 0, decodes
    successfully. The record has exactly the five groups [eps], [com],
    [obc], [adcs] and [adsb], read from the slices of 49, 14, 14, 20 and
    38 bytes that follow the type byte, and the names and kinds of the
    fields of every group are the documented ones. *)
Theorem decode_well_formed data csp crc :
  (csp = true → routing_ok data) →
  length (payload data csp crc) = 136%nat →
  octet (payload data csp crc) 0 = 0 →
  let p := payload data csp crc in
  ∃ rec,
    decode data csp crc = Return rec
    ∧ dom rec = {["eps"; "com"; "obc"; "adcs"; "adsb"]}
    ∧ rec !! "eps" = Some (eps_layout (slice p 1 49))
    ∧ rec !! "com" = Some (com_layout (slice p 50 14))
    ∧ rec !! "obc" = Some (obc_layout (slice p 64 14))
    ∧ rec !! "adcs" = Some (adcs_layout (slice p 78 20))
    ∧ rec !! "adsb" = Some (adsb_layout (slice p 98 38))
    ∧ (fun g : gmap string pyval => shape_of <$> g) <$> rec =
        dict [("eps", eps_shape); ("com", com_shape); ("obc", obc_shape);
              ("adcs", adcs_shape); ("adsb", adsb_shape)].
Proof.
  intros Hr Hlen Htag p. exists (record p). split.
  - rewrite decode_routing_ok by done. unfold validate. fold p.
    by rewrite !bool_decide_eq_true_2.
  - split; [|repeat split; reflexivity].
    unfold record. rewrite dict_dom. simpl. set_solver.
Qed.

(** C2. When the header, if one is configured, passes the routing check
    and what remains after stripping the configured header and trailer is
    not exactly 136 bytes long, decoding fails with the length error. *)
Theorem wrong_length_fails data csp crc :
  (csp = true → routing_ok data) →
  length (payload data csp crc) ≠ 136%nat →
  decode data csp crc = Raise LengthMismatch.
Proof.
  intros Hr Hlen. rewrite decode_routing_ok by done.
  unfold validate. by rewrite bool_decide_eq_false_2.
Qed.

(** C3, as amended. When the header, if one is configured, passes the
    routing check and the stripped payload has exactly 136 bytes, a first
    byte other than 0 makes decoding fail with the type error. *)
Theorem wrong_type_fails data csp crc :
  (csp = true → routing_ok data) →
  length (payload data csp crc) = 136%nat →
  octet (payload data csp crc) 0 ≠ 0 →
  decode data csp crc = Raise UnsupportedType.
Proof.
  intros Hr Hlen Htag. rewrite decode_routing_ok by done.
  unfold validate.
  by rewrite bool_decide_eq_true_2, bool_decide_eq_false_2.
Qed.

(** C4. With the header flag set, the first four bytes are read as a
    little-endian unsigned 32-bit word, and decoding fails with the
    routing error exactly when the source (bits 25-29), destination
    (bits 20-24) and destination port (bits 14-19) of that word are not
    (1, 10, 30). The shifts and masks of the code select those bits. *)
Theorem routing_mismatch_iff data crc :
  (decode data true crc = Raise RoutingMismatch
   ↔ ∃ w, header data = Some w ∧ routing w ≠ (1, 10, 30))
  ∧ ((4 ≤ length data)%nat →
     unpack "<I" (take 4 data) = Return [VInt (le_u32 data)])
  ∧ ∀ w, Z.land (Z.shiftr w 25) 0x1f = bits w 25 5
         ∧ Z.land (Z.shiftr w 20) 0x1f = bits w 20 5
         ∧ Z.land (Z.shiftr w 14) 0x3f = bits w 14 6.
Proof.
  split; [|split].
  - rewrite decode_validate, split_header_csp.
    destruct (header data) as [w|]; [|split; [done|by intros (? & ? & ?)]].
    case_bool_decide as Hr.
    + split; [|intros (? & [= <-] & ?); done].
      unfold validate, RoutingMismatch, UnsupportedType, LengthMismatch.
      repeat case_bool_decide; done.
    + split; [by exists w|done].
  - intros Hlen. erewrite unpack_sized; [|vm_compute; reflexivity|].
    + wire_fields. by rewrite uint_le_take4.
    + rewrite length_take. change (calcsize _) with 4%nat. lia.
  - intros w. change 0x1f with (Z.ones 5). change 0x3f with (Z.ones 6).
    by rewrite !land_shiftr_bits.
Qed.

(** C5. In every successfully decoded frame the board and amplifier
    temperatures of [com] and the two temperatures of [obc] and of [adcs]
    are the big-endian signed 16-bit values found at payload offsets 54,
    56, 74, 76, 94 and 96, divided by 10.0; a raw 235 gives 23.5. *)
Theorem temperatures_scaled data csp crc rec :
  decode data csp crc = Return rec →
  let p := payload data csp crc in
  rec !! "com" ≫= (.!! "temp_brd") = Some (PFloat (truediv (be_i16 p 54) 10))
  ∧ rec !! "com" ≫= (.!! "temp_pa") = Some (PFloat (truediv (be_i16 p 56) 10))
  ∧ rec !! "obc" ≫= (.!! "temp_a") = Some (PFloat (truediv (be_i16 p 74) 10))
  ∧ rec !! "obc" ≫= (.!! "temp_b ") = Some (PFloat (truediv (be_i16 p 76) 10))
  ∧ rec !! "adcs" ≫= (.!! "temp_a") = Some (PFloat (truediv (be_i16 p 94) 10))
  ∧ rec !! "adcs" ≫= (.!! "temp_b ") = Some (PFloat (truediv (be_i16 p 96) 10))
  ∧ truediv 235 10 = 23.5%float.
Proof.
  intros (Hlen & Htag & ->)%decode_Return p. fold p.
  change (be_i16 p 54) with (be_i16 p (50 + 4)).
  change (be_i16 p 56) with (be_i16 p (50 + 6)).
  change (be_i16 p 74) with (be_i16 p (64 + 10)).
  change (be_i16 p 76) with (be_i16 p (64 + 12)).
  change (be_i16 p 94) with (be_i16 p (78 + 16)).
  change (be_i16 p 96) with (be_i16 p (78 + 18)).
  rewrite <- (be_i16_slice p 50 14 4), <- (be_i16_slice p 50 14 6) by lia.
  rewrite <- (be_i16_slice p 64 14 10), <- (be_i16_slice p 64 14 12) by lia.
  rewrite <- (be_i16_slice p 78 20 16), <- (be_i16_slice p 78 20 18) by lia.
  repeat split; reflexivity.
Qed.

(** C6. In every successfully decoded frame the [eps] group is read from
    the 49 bytes that follow the type byte, all fields big-endian: an
    unsigned 32-bit timestamp; sixteen unsigned 16-bit integers taken in
    order as three boost voltages, the battery voltage, seven output
    currents, three input currents, the sun-sensor current and the system
    current; six signed 16-bit temperatures kept as raw integers; and an
    unsigned 8-bit battery mode. *)
Theorem power_group_layout data csp crc rec :
  decode data csp crc = Return rec →
  let blk := slice (payload data csp crc) 1 49 in
  length blk = 49%nat
  ∧ rec !! "eps" = Some (dict [
      ("timestamp", PInt (be_u32 blk 0));
      ("vboost", PTuple [be_u16 blk 4; be_u16 blk 6; be_u16 blk 8]);
      ("vbatt", PInt (be_u16 blk 10));
      ("curout", PTuple [be_u16 blk 12; be_u16 blk 14; be_u16 blk 16;
                         be_u16 blk 18; be_u16 blk 20; be_u16 blk 22;
                         be_u16 blk 24]);
      ("curin", PTuple [be_u16 blk 26; be_u16 blk 28; be_u16 blk 30]);
      ("cursun", PInt (be_u16 blk 32));
      ("cursys", PInt (be_u16 blk 34));
      ("temp", PTuple [be_i16 blk 36; be_i16 blk 38; be_i16 blk 40;
                       be_i16 blk 42; be_i16 blk 44; be_i16 blk 46]);
      ("battmode", PInt (octet blk 48))])
  ∧ (∀ off, 0 ≤ be_u32 blk off < 2 ^ 32 ∧ 0 ≤ be_u16 blk off < 2 ^ 16
            ∧ - 2 ^ 15 ≤ be_i16 blk off < 2 ^ 15 ∧ 0 ≤ octet blk off < 2 ^ 8).
Proof.
  intros (Hlen & Htag & ->)%decode_Return blk. split; [|split].
  - apply length_slice. unfold BEACON0_LENGTH in Hlen. lia.
  - reflexivity.
  - intros off.
    auto using be_u32_range, be_u16_range, be_i16_range, octet_range.
Qed.

(** C7, as amended. With the trailer flag set, the last four bytes are
    dropped unread provided they do not overlap the header: two inputs of
    the same length that agree on everything but their last four bytes
    decode to the same outcome when the header flag is clear, or when the
    input has at least 8 bytes (or fewer than 4, where no header can be
    read at all). *)
Theorem trailer_ignored d1 d2 csp :
  length d1 = length d2 →
  take (length d1 - 4) d1 = take (length d2 - 4) d2 →
  (csp = true → (length d1 < 4 ∨ 8 ≤ length d1)%nat) →
  decode d1 csp true = decode d2 csp true.
Proof.
  intros Hlen Heq Hcsp. rewrite !decode_validate. destruct csp.
  - rewrite !split_header_csp. unfold header. rewrite <- Hlen.
    case_bool_decide as H4; [|done].
    destruct Hcsp as [?|H8]; [done|lia|].
    assert (le_u32 d1 = le_u32 d2) as ->.
    { rewrite <- (le_u32_take d1 (length d1 - 4)) by lia.
      rewrite <- (le_u32_take d2 (length d2 - 4)) by lia.
      by rewrite Heq. }
    case_bool_decide; [|done]. f_equal.
    unfold strip_tail. rewrite !length_drop, !take_drop_commute.
    replace (4 + (length d1 - 4 - 4))%nat with (length d1 - 4)%nat by lia.
    replace (4 + (length d2 - 4 - 4))%nat with (length d2 - 4)%nat by lia.
    by rewrite Heq.
  - rewrite !split_header_no_csp. unfold strip_tail. by rewrite Heq.
Qed.

(** C8. The checks come in a fixed order: routing, then length, then type
    tag. A header whose routing fields deviate fails with the routing
    error whatever the payload length and type byte are, and, the header
    check passed, a stripped payload of the wrong length fails with the
    length error whatever its first byte is. *)
Theorem checks_ordered :
  (∀ data crc w,
     header data = Some w → routing w ≠ (1, 10, 30) →
     decode data true crc = Raise RoutingMismatch)
  ∧ (∀ data csp crc,
       (csp = true → routing_ok data) →
       length (payload data csp crc) ≠ 136%nat →
       decode data csp crc = Raise LengthMismatch).
Proof.
  split.
  - intros data crc w Hw Hr.
    by rewrite decode_validate, split_header_csp, Hw, bool_decide_eq_false_2.
  - intros data csp crc Hr Hlen. rewrite decode_routing_ok by done.
    unfold validate. by rewrite bool_decide_eq_false_2.
Qed.

(** C9. With the header flag set, an input of fewer than four bytes fails
    with [struct.error], which is none of the three typed failures. *)
Theorem short_header_struct_error data crc :
  (length data < 4)%nat →
  decode data true crc = Raise StructError
  ∧ StructError ≠ RoutingMismatch
  ∧ StructError ≠ LengthMismatch
  ∧ StructError ≠ UnsupportedType.
Proof.
  intros Hlen. split; [|repeat split; discriminate].
  rewrite decode_validate, split_header_csp. unfold header.
  rewrite bool_decide_eq_false_2; [done|lia].
Qed.

(** C10. In every successfully decoded record the second temperature of
    [obc] and of [adcs] is stored under the key ["temp_b "] and the time of
    the last detection of [adsb] under ["last_time "], both with a
    trailing space (the keys without the space are absent); no other
    field name, and no group name, ends in whitespace. *)
Theorem trailing_space_keys data csp crc rec :
  decode data csp crc = Return rec →
  let p := payload data csp crc in
  rec !! "obc" ≫= (.!! "temp_b ") = Some (PFloat (truediv (be_i16 p 76) 10))
  ∧ rec !! "obc" ≫= (.!! "temp_b") = None
  ∧ rec !! "adcs" ≫= (.!! "temp_b ") = Some (PFloat (truediv (be_i16 p 96) 10))
  ∧ rec !! "adcs" ≫= (.!! "temp_b") = None
  ∧ rec !! "adsb" ≫= (.!! "last_time ") = Some (PInt (be_u32 p 132))
  ∧ rec !! "adsb" ≫= (.!! "last_time") = None
  ∧ ∀ name g k v,
      rec !! name = Some g → g !! k = Some v →
      trailing_space name = false
      ∧ (trailing_space k = true →
         (name, k) ∈ [("obc", "temp_b "); ("adcs", "temp_b ");
                      ("adsb", "last_time ")]).
Proof.
  intros (Hlen & Htag & ->)%decode_Return p. fold p.
  change (be_i16 p 76) with (be_i16 p (64 + 12)).
  change (be_i16 p 96) with (be_i16 p (78 + 18)).
  change (be_u32 p 132) with (be_u32 p (98 + 34)).
  rewrite <- (be_i16_slice p 64 14 12), <- (be_i16_slice p 78 20 18) by lia.
  rewrite <- (be_u32_slice p 98 38 34) by lia.
  do 6 (split; [reflexivity|]).
  intros name g k v Hg Hk. apply record_groups in Hg.
  repeat (apply elem_of_cons in Hg as [[= -> ->]|Hg]);
    [..|by apply elem_of_nil in Hg];
    (split; [reflexivity|]);
    apply dict_lookup_Some in Hk;
    repeat (apply elem_of_cons in Hk as [[= -> _]|Hk]);
    try (by apply elem_of_nil in Hk);
    intros Hs; vm_compute in Hs; first [discriminate Hs | set_solver].
Qed.

End Properties.

(** ** Concrete frames *)

Section Frames.

Local Open Scope Z_scope.

(** The golden frame decodes, with the values of a reference run. *)
Example golden_decodes :
  ∃ rec, decode Golden.frame false true = Return rec
    ∧ rec !! "eps" ≫= (.!! "vbatt") = Some (PInt 16591)
    ∧ rec !! "eps" ≫= (.!! "temp") = Some (PTuple [28; 30; 30; 29; 28; 28])
    ∧ rec !! "com" ≫= (.!! "temp_brd") = Some (PFloat 0x1.f333333333333p+4)
    ∧ rec !! "com" ≫= (.!! "last_rssi") = Some (PInt (-59))
    ∧ rec !! "adsb" ≫= (.!! "last_lat") = Some (PFloat 0x1.c08e78p+5)
    ∧ rec !! "adsb" ≫= (.!! "last_lon") = Some (PFloat 0x1.39a6c4p+3).
Proof.
  exists (record (payload Golden.frame false true)).
  repeat split; reflexivity.
Qed.

(** C1, on the golden frame behind a CSP header from node 1 to node 10,
    port 30. *)
Lemma decode_well_formed_golden :
  ∃ rec,
    decode (Golden.csp_header ++ Golden.frame) true true = Return rec
    ∧ dom rec = {["eps"; "com"; "obc"; "adcs"; "adsb"]}.
Proof.
  destruct (decode_well_formed (Golden.csp_header ++ Golden.frame) true true)
    as (rec & Hd & Hdom & _).
  - intros _. exists 0x02a78000. split; reflexivity.
  - reflexivity.
  - reflexivity.
  - exists rec. split; [exact Hd|exact Hdom].
Defined.

(** C2, on the golden frame taken without trailer: 140 bytes remain. *)
Lemma wrong_length_fails_golden :
  decode Golden.frame false false = Raise LengthMismatch.
Proof.
  apply (wrong_length_fails Golden.frame false false); [discriminate|].
  vm_compute. lia.
Defined.

(** C3 as stated fails on the one-byte frame [01] without header and
    trailer: its first byte is not 0, and the failure is the length
    error. *)
Lemma wrong_type_short_frame :
  octet (payload [Byte.x01] false false) 0 = 1
  ∧ decode [Byte.x01] false false = Raise LengthMismatch
  ∧ LengthMismatch ≠ UnsupportedType.
Proof. split; [reflexivity|]. split; [reflexivity|discriminate]. Qed.

(** C3 as amended, on the golden frame with its type byte set to 1. *)
Lemma wrong_type_fails_golden :
  decode (Byte.x01 :: drop 1 Golden.frame) false true = Raise UnsupportedType.
Proof.
  apply (wrong_type_fails (Byte.x01 :: drop 1 Golden.frame) false true);
    [discriminate|reflexivity|vm_compute; lia].
Defined.

(** C5, on the golden frame. *)
Lemma temperatures_scaled_golden :
  ∃ rec, decode Golden.frame false true = Return rec
    ∧ rec !! "com" ≫= (.!! "temp_brd")
      = Some (PFloat (truediv (be_i16 (payload Golden.frame false true) 54) 10)).
Proof.
  exists (record (payload Golden.frame false true)).
  split; [reflexivity|].
  refine (proj1 (temperatures_scaled Golden.frame false true _ _)).
  reflexivity.
Defined.

(** C6, on the golden frame. *)
Lemma power_group_layout_golden :
  ∃ rec, decode Golden.frame false true = Return rec
    ∧ length (slice (payload Golden.frame false true) 1 49) = 49%nat.
Proof.
  exists (record (payload Golden.frame false true)).
  split; [reflexivity|].
  refine (proj1 (power_group_layout Golden.frame false true _ _)).
  reflexivity.
Defined.

(** C7 as stated fails when the last four bytes are the header itself:
    the two 4-byte inputs below differ only in their last four bytes, yet
    one fails on its length and the other on its routing. *)
Lemma trailer_overlaps_header :
  length Golden.csp_header = length [Byte.x00; Byte.x00; Byte.x00; Byte.x00]
  ∧ take (length Golden.csp_header - 4) Golden.csp_header
    = take (4 - 4) [Byte.x00; Byte.x00; Byte.x00; Byte.x00]
  ∧ decode Golden.csp_header true true = Raise LengthMismatch
  ∧ decode [Byte.x00; Byte.x00; Byte.x00; Byte.x00] true true
    = Raise RoutingMismatch
  ∧ LengthMismatch ≠ RoutingMismatch.
Proof. repeat split; try reflexivity. discriminate. Qed.

(** C7 as amended, on the golden frame and a copy with another CRC. *)
Lemma trailer_ignored_golden :
  decode Golden.frame false true
  = decode (take 136 Golden.frame ++ Golden.csp_header) false true.
Proof.
  apply (trailer_ignored Golden.frame
           (take 136 Golden.frame ++ Golden.csp_header) false);
    [reflexivity|reflexivity|discriminate].
Defined.

(** C8, on a null header in front of the golden frame, and on the golden
    frame without trailer. *)
Lemma checks_ordered_golden :
  decode ([Byte.x00; Byte.x00; Byte.x00; Byte.x00] ++ Golden.frame) true true
    = Raise RoutingMismatch
  ∧ decode Golden.frame false false = Raise LengthMismatch.
Proof.
  split.
  - apply (proj1 checks_ordered _ true 0); [reflexivity|discriminate].
  - apply (proj2 checks_ordered Golden.frame false false); [discriminate|].
    vm_compute. lia.
Defined.

(** C9, on a three-byte input. *)
Lemma short_header_struct_error_three :
  decode [Byte.x00; Byte.x80; Byte.xa7] true true = Raise StructError.
Proof.
  refine (proj1 (short_header_struct_error [Byte.x00; Byte.x80; Byte.xa7] true _)).
  simpl. lia.
Defined.

(** C10, on the golden frame. *)
Lemma trailing_space_keys_golden :
  ∃ rec, decode Golden.frame false true = Return rec
    ∧ rec !! "obc" ≫= (.!! "temp_b") = None.
Proof.
  exists (record (payload Golden.frame false true)).
  split; [reflexivity|].
  refine (proj1 (proj2 (trailing_space_keys Golden.frame false true _ _))).
  reflexivity.
Defined.

End Frames.

(** ** Further properties: the other groups *)

Section Layouts.

Implicit Types (data p : list byte) (csp crc : bool).
Local Open Scope Z_scope.

Lemma be_f32_slice p a n off :
  (off + 4 ≤ n)%nat → be_f32 (slice p a n) off = be_f32 p (a + off).
Proof. intros H. unfold be_f32. by rewrite be_u32_slice. Qed.

(** X1. In every successfully decoded frame the [com] group is read from
    payload bytes 50 to 63, big-endian: an unsigned 32-bit timestamp at 50,
    then five signed 16-bit values, of which the board and amplifier
    temperatures (54, 56) are divided by 10.0 and the last RSSI, last RF
    error and background RSSI (58, 60, 62) are kept as raw integers. *)
Theorem comms_group_layout data csp crc rec :
  decode data csp crc = Return rec →
  let p := payload data csp crc in
  rec !! "com" = Some (dict [
      ("timestamp", PInt (be_u32 p 50));
      ("temp_brd", PFloat (truediv (be_i16 p 54) 10));
      ("temp_pa", PFloat (truediv (be_i16 p 56) 10));
      ("last_rssi", PInt (be_i16 p 58));
      ("last_rferr", PInt (be_i16 p 60));
      ("bgnd_rssi", PInt (be_i16 p 62))])
  ∧ (∀ off, 0 ≤ be_u32 p off < 2 ^ 32 ∧ - 2 ^ 15 ≤ be_i16 p off < 2 ^ 15).
Proof.
  intros (Hlen & Htag & ->)%decode_Return p. fold p. split.
  - change (record p !! "com") with (Some (com_layout (slice p 50 14))).
    unfold com_layout.
    rewrite !be_u32_slice, !be_i16_slice by lia. reflexivity.
  - auto using be_u32_range, be_i16_range.
Qed.

(** X2. In every successfully decoded frame the [obc] group is read from
    payload bytes 64 to 77, big-endian: an unsigned 32-bit timestamp at 64,
    three unsigned 16-bit currents (68, 70, 72) and two signed 16-bit
    temperatures (74, 76) divided by 10.0. *)
Theorem obc_group_layout_at data csp crc rec :
  decode data csp crc = Return rec →
  let p := payload data csp crc in
  rec !! "obc" = Some (dict [
      ("timestamp", PInt (be_u32 p 64));
      ("cur_gssb1", PInt (be_u16 p 68));
      ("cur_gssb2", PInt (be_u16 p 70));
      ("cur_flash", PInt (be_u16 p 72));
      ("temp_a", PFloat (truediv (be_i16 p 74) 10));
      ("temp_b ", PFloat (truediv (be_i16 p 76) 10))])
  ∧ (∀ off, 0 ≤ be_u32 p off < 2 ^ 32 ∧ 0 ≤ be_u16 p off < 2 ^ 16).
Proof.
  intros (Hlen & Htag & ->)%decode_Return p. fold p. split.
  - change (record p !! "obc") with (Some (obc_layout (slice p 64 14))).
    unfold obc_layout.
    rewrite !be_u32_slice, !be_u16_slice, !be_i16_slice by lia. reflexivity.
  - auto using be_u32_range, be_u16_range.
Qed.

(** X3. In every successfully decoded frame the [adcs] group is read from
    payload bytes 78 to 97, big-endian: an unsigned 32-bit timestamp at 78,
    six unsigned 16-bit currents (82 to 92) and two signed 16-bit
    temperatures (94, 96) divided by 10.0. *)
Theorem adcs_group_layout_at data csp crc rec :
  decode data csp crc = Return rec →
  let p := payload data csp crc in
  rec !! "adcs" = Some (dict [
      ("timestamp", PInt (be_u32 p 78));
      ("cur_gssb1", PInt (be_u16 p 82));
      ("cur_gssb2", PInt (be_u16 p 84));
      ("cur_flash", PInt (be_u16 p 86));
      ("cur_pwm", PInt (be_u16 p 88));
      ("cur_gps", PInt (be_u16 p 90));
      ("cur_wde", PInt (be_u16 p 92));
      ("temp_a", PFloat (truediv (be_i16 p 94) 10));
      ("temp_b ", PFloat (truediv (be_i16 p 96) 10))])
  ∧ (∀ off, 0 ≤ be_u32 p off < 2 ^ 32 ∧ 0 ≤ be_u16 p off < 2 ^ 16).
Proof.
  intros (Hlen & Htag & ->)%decode_Return p. fold p. split.
  - change (record p !! "adcs") with (Some (adcs_layout (slice p 78 20))).
    unfold adcs_layout.
    rewrite !be_u32_slice, !be_u16_slice, !be_i16_slice by lia. reflexivity.
  - auto using be_u32_range, be_u16_range.
Qed.

(** X4. In every successfully decoded frame the [adsb] group is read from
    payload bytes 98 to 135, big-endian: an unsigned 32-bit timestamp at
    98, seven unsigned 16-bit currents (102 to 114), the unsigned 32-bit
    ICAO code at 116, latitude and longitude as the values of the binary32
    patterns at 120 and 124, and the unsigned 32-bit altitude and time of
    the last detection at 128 and 132; nothing is scaled. *)
Theorem adsb_group_layout_at data csp crc rec :
  decode data csp crc = Return rec →
  let p := payload data csp crc in
  rec !! "adsb" = Some (dict [
      ("timestamp", PInt (be_u32 p 98));
      ("cur5v0brd", PInt (be_u16 p 102));
      ("cur3v3brd", PInt (be_u16 p 104));
      ("cur3v3sd", PInt (be_u16 p 106));
      ("cur1v2", PInt (be_u16 p 108));
      ("cur2v5", PInt (be_u16 p 110));
      ("cur3v3fpga", PInt (be_u16 p 112));
      ("cur3v3adc", PInt (be_u16 p 114));
      ("last_icao", PInt (be_u32 p 116));
      ("last_lat", PFloat (float_of_binary32 (be_u32 p 120)));
      ("last_lon", PFloat (float_of_binary32 (be_u32 p 124)));
      ("last_alt", PInt (be_u32 p 128));
      ("last_time ", PInt (be_u32 p 132))])
  ∧ (∀ off, 0 ≤ be_u32 p off < 2 ^ 32 ∧ 0 ≤ be_u16 p off < 2 ^ 16).
Proof.
  intros (Hlen & Htag & ->)%decode_Return p. fold p. split.
  - change (record p !! "adsb") with (Some (adsb_layout (slice p 98 38))).
    unfold adsb_layout.
    rewrite !be_u32_slice, !be_u16_slice, !be_f32_slice by lia. reflexivity.
  - auto using be_u32_range, be_u16_range.
Qed.

End Layouts.

(** ** Further properties: outcomes *)

Section Outcomes.

Implicit Types (data p : list byte) (csp crc : bool).
Local Open Scope Z_scope.

(** The three ways through the header block. *)
Lemma decode_cases data csp crc :
  (csp = true ∧ (length data < 4)%nat
   ∧ decode data csp crc = Raise StructError)
  ∨ (csp = true ∧ (∃ w, header data = Some w ∧ routing w ≠ (1, 10, 30))
     ∧ decode data csp crc = Raise RoutingMismatch)
  ∨ ((csp = true → routing_ok data)
     ∧ decode data csp crc = validate (payload data csp crc)).
Proof.
  destruct csp.
  - rewrite decode_validate, split_header_csp.
    destruct (header data) as [w|] eqn:Hw.
    + case_bool_decide as Hr.
      * right. right. split; [intros _; by exists w|]. reflexivity.
      * right. left. split; [done|]. split; [by exists w|done].
    + left. split; [done|]. split; [|done].
      unfold header in Hw. case_bool_decide; [done|lia].
  - right. right. split; [done|]. by apply decode_routing_ok.
Qed.

Lemma validate_cases p :
  (length p ≠ 136%nat ∧ validate p = Raise LengthMismatch)
  ∨ (length p = 136%nat ∧ octet p 0 ≠ 0 ∧ validate p = Raise UnsupportedType)
  ∨ (length p = 136%nat ∧ octet p 0 = 0 ∧ validate p = Return (record p)).
Proof.
  unfold validate, BEACON0_LENGTH. repeat case_bool_decide; auto.
Qed.

Lemma routing_ok_header data w :
  routing_ok data → header data = Some w → routing w = (1, 10, 30).
Proof. intros (w' & Hw' & Hr) Hw. congruence. Qed.

(** X5. The failures of the decoder, exactly: [struct.error] when the
    header flag is set and the input has fewer than four bytes; the routing
    error when a header is read and its fields deviate; the length error
    when the header check is passed (or not configured) and the stripped
    payload is not 136 bytes long; the type error when it is 136 bytes long
    and its first byte is not 0. Nothing else is ever raised. *)
Theorem decode_failures data csp crc e :
  decode data csp crc = Raise e ↔
    (e = StructError ∧ csp = true ∧ (length data < 4)%nat)
    ∨ (e = RoutingMismatch ∧ csp = true
       ∧ ∃ w, header data = Some w ∧ routing w ≠ (1, 10, 30))
    ∨ (e = LengthMismatch ∧ (csp = true → routing_ok data)
       ∧ length (payload data csp crc) ≠ 136%nat)
    ∨ (e = UnsupportedType ∧ (csp = true → routing_ok data)
       ∧ length (payload data csp crc) = 136%nat
       ∧ octet (payload data csp crc) 0 ≠ 0).
Proof.
  split.
  - intros He.
    destruct (decode_cases data csp crc)
      as [(Hc & Hl & Hd)|[(Hc & Hw & Hd)|(Hr & Hd)]].
    + rewrite Hd in He. injection He as <-. auto.
    + rewrite Hd in He. injection He as <-. auto 6.
    + rewrite Hd in He.
      destruct (validate_cases (payload data csp crc))
        as [(Hl & Hv)|[(Hl & Ht & Hv)|(Hl & Ht & Hv)]];
        rewrite Hv in He; [| |done]; injection He as <-; auto 8.
  - intros [(-> & Hc & Hl)|[(-> & Hc & w & Hw & Hr)|
            [(-> & Hr & Hl)|(-> & Hr & Hl & Ht)]]].
    + destruct (decode_cases data csp crc)
        as [(_ & _ & Hd)|[(_ & (w & Hw & _) & _)|(Hr & _)]]; [done| |].
      * unfold header in Hw. case_bool_decide; [lia|done].
      * destruct (Hr Hc) as (w & Hw & _).
        unfold header in Hw. case_bool_decide; [lia|done].
    + destruct (decode_cases data csp crc)
        as [(_ & Hl & _)|[(_ & _ & Hd)|(Hok & _)]]; [|done|].
      * unfold header in Hw. case_bool_decide; [lia|done].
      * destruct Hr. apply (routing_ok_header data); [by apply Hok|done].
    + rewrite decode_routing_ok by done.
      by destruct (validate_cases (payload data csp crc))
        as [(? & ?)|[(? & ? & ?)|(? & ? & ?)]].
    + rewrite decode_routing_ok by done.
      by destruct (validate_cases (payload data csp crc))
        as [(? & ?)|[(? & ? & ?)|(? & ? & ?)]].
Qed.

(** X6. Decoding succeeds exactly when the header, if configured, passes
    the routing check and the stripped payload has 136 bytes and type byte
    0; the record is then the one laid out over that payload. *)
Theorem decode_success_iff data csp crc rec :
  decode data csp crc = Return rec ↔
    (csp = true → routing_ok data)
    ∧ length (payload data csp crc) = 136%nat
    ∧ octet (payload data csp crc) 0 = 0
    ∧ rec = record (payload data csp crc).
Proof.
  split.
  - intros Hd.
    destruct (decode_cases data csp crc)
      as [(_ & _ & He)|[(_ & _ & He)|(Hr & _)]];
      [rewrite He in Hd; done..|].
    apply decode_Return in Hd as (Hl & Ht & ->). done.
  - intros (Hr & Hl & Ht & ->). rewrite decode_routing_ok by done.
    by destruct (validate_cases (payload data csp crc))
      as [(? & ?)|[(? & ? & ?)|(? & ? & ?)]].
Qed.

(** X7. A frame that decodes has exactly 136 bytes plus 4 for a configured
    header plus 4 for a configured trailer: truncated frames and frames
    with bytes appended are all rejected. *)
Theorem decode_input_length data csp crc rec :
  decode data csp crc = Return rec →
  length data = (136 + (if csp then 4 else 0) + (if crc then 4 else 0))%nat.
Proof.
  intros Hd.
  destruct (decode_cases data csp crc)
    as [(_ & _ & He)|[(_ & _ & He)|(Hr & _)]];
    [rewrite He in Hd; done..|].
  apply decode_Return in Hd as (Hl & _ & _).
  assert (csp = true → 4 ≤ length data)%nat as H4.
  { intros Hc. destruct (Hr Hc) as (w & Hw & _).
    unfold header in Hw. by case_bool_decide. }
  unfold payload, strip_tail, BEACON0_LENGTH in Hl.
  destruct csp, crc; rewrite ?length_take, ?length_drop in Hl;
    try specialize (H4 eq_refl); lia.
Qed.

End Outcomes.

(** ** Further properties: header and trailer *)

Section Framing.

Implicit Types (data p h t rest : list byte) (csp crc : bool).
Local Open Scope Z_scope.

Lemma bits_testbit w lo n i :
  0 ≤ lo → 0 ≤ n → 0 ≤ i →
  Z.testbit (bits w lo n) i = (i <? n) && Z.testbit w (i + lo).
Proof.
  intros Hlo Hn Hi. rewrite <- land_shiftr_bits by done.
  rewrite Z.land_spec, Z.shiftr_spec, Z.testbit_ones_nonneg by done.
  apply andb_comm.
Qed.

(** A field of a field is a field of the word. *)
Lemma bits_bits w a m b n :
  0 ≤ a → 0 ≤ b → 0 ≤ n → b + n ≤ m →
  bits (bits w a m) b n = bits w (a + b) n.
Proof.
  intros Ha Hb Hn Hm. apply Z.bits_inj'. intros i Hi.
  rewrite !bits_testbit by lia.
  destruct (Z.ltb_spec i n) as [Hlt|Hge]; [|done].
  rewrite (proj2 (Z.ltb_lt (i + b) m)) by lia.
  simpl. f_equal. lia.
Qed.

(** The routing fields lie in bits 14 to 29 of the header word. *)
Lemma routing_bits w :
  routing w =
    (bits (bits w 14 16) 11 5, bits (bits w 14 16) 6 5, bits (bits w 14 16) 0 6).
Proof. unfold routing. by rewrite !bits_bits by lia. Qed.

Lemma le_u32_app h rest : length h = 4%nat → le_u32 (h ++ rest) = le_u32 h.
Proof.
  intros H. unfold le_u32, octet. by rewrite !lookup_app_l by lia.
Qed.

Lemma header_app h rest :
  length h = 4%nat → header (h ++ rest) = Some (le_u32 h).
Proof.
  intros H. unfold header.
  rewrite bool_decide_eq_true_2 by (rewrite length_app; lia).
  by rewrite le_u32_app.
Qed.

(** X8. Of a CSP header only bits 14 to 29 matter: two frames that differ
    only in their 4-byte headers, the header words agreeing on bits 14 to
    29, decode to the same outcome. Priority, source port and flag bits
    (bits 30-31 and 0-13) are never looked at. *)
Theorem header_other_bits_ignored h1 h2 rest crc :
  length h1 = 4%nat → length h2 = 4%nat →
  bits (le_u32 h1) 14 16 = bits (le_u32 h2) 14 16 →
  decode (h1 ++ rest) true crc = decode (h2 ++ rest) true crc.
Proof.
  intros H1 H2 Hb.
  rewrite !decode_validate, !split_header_csp, !header_app by done.
  rewrite (routing_bits (le_u32 h1)), (routing_bits (le_u32 h2)), Hb.
  by rewrite !drop_app_length' by done.
Qed.

(** X9. Header and trailer are transparent: a payload behind a 4-byte
    header with routing (1, 10, 30) and/or in front of any 4-byte trailer
    decodes, with the matching flags, to the outcome of the bare payload
    decoded with both flags clear. *)
Theorem framing_transparent h p t :
  length h = 4%nat → routing (le_u32 h) = (1, 10, 30) → length t = 4%nat →
  decode (h ++ p ++ t) true true = decode p false false
  ∧ decode (h ++ p) true false = decode p false false
  ∧ decode (p ++ t) false true = decode p false false.
Proof.
  intros Hh Hr Ht.
  assert (∀ rest, routing_ok (h ++ rest)) as Hok.
  { intros rest. exists (le_u32 h). by rewrite header_app. }
  rewrite !decode_routing_ok by (intros; done || apply Hok).
  unfold payload, strip_tail.
  rewrite !drop_app_length' by done.
  rewrite length_app, Ht, Nat.add_sub.
  by rewrite take_app_length.
Qed.

End Framing.

(** ** Further properties: nothing is lost *)

Section Lossless.

Implicit Types (data p q blk : list byte) (csp crc : bool).
Local Open Scope Z_scope.

Lemma byte_val_inj (a b : byte) : byte_val a = byte_val b → a = b.
Proof.
  unfold byte_val. intros H%(inj Z.of_N).
  assert (Some a = Some b) as [= ->]; [|done].
  by rewrite <- (Byte.of_to_N a), <- (Byte.of_to_N b), H.
Qed.

(** Two byte strings of the same length with the same bytes are equal. *)
Lemma octets_eq (n : nat) p q :
  length p = n → length q = n →
  (∀ i, (i < n)%nat → octet p i = octet q i) → p = q.
Proof.
  intros Hp Hq H. apply list_eq. intros i.
  destruct (decide (i < n)%nat) as [Hi|Hi].
  - destruct (lookup_lt_is_Some_2 p i) as [a Ha]; [lia|].
    destruct (lookup_lt_is_Some_2 q i) as [b Hb]; [lia|].
    specialize (H i Hi).
    rewrite (octet_lookup _ _ _ Ha), (octet_lookup _ _ _ Hb) in H.
    by rewrite Ha, Hb, (byte_val_inj _ _ H).
  - by rewrite !lookup_ge_None_2 by lia.
Qed.

Lemma be_u16_inj p q i :
  be_u16 p i = be_u16 q i →
  octet p i = octet q i ∧ octet p (i + 1) = octet q (i + 1).
Proof.
  unfold be_u16.
  pose proof (octet_range p i). pose proof (octet_range p (i + 1)).
  pose proof (octet_range q i). pose proof (octet_range q (i + 1)).
  lia.
Qed.

Lemma be_i16_inj p q i :
  be_i16 p i = be_i16 q i →
  octet p i = octet q i ∧ octet p (i + 1) = octet q (i + 1).
Proof.
  intros H. apply be_u16_inj. revert H. unfold be_i16. cbv zeta.
  pose proof (be_u16_range p i). pose proof (be_u16_range q i).
  destruct (Z.ltb_spec (be_u16 p i) (2 ^ 15)),
    (Z.ltb_spec (be_u16 q i) (2 ^ 15)); lia.
Qed.

Lemma be_u32_inj p q i :
  be_u32 p i = be_u32 q i →
  octet p i = octet q i ∧ octet p (i + 1) = octet q (i + 1)
  ∧ octet p (i + 2) = octet q (i + 2) ∧ octet p (i + 3) = octet q (i + 3).
Proof.
  unfold be_u32.
  pose proof (octet_range p i). pose proof (octet_range p (i + 1)).
  pose proof (octet_range p (i + 2)). pose proof (octet_range p (i + 3)).
  pose proof (octet_range q i). pose proof (octet_range q (i + 1)).
  pose proof (octet_range q (i + 2)). pose proof (octet_range q (i + 3)).
  lia.
Qed.

(** The [eps] group holds every byte of its block. *)
Lemma eps_layout_inj blk1 blk2 :
  length blk1 = 49%nat → length blk2 = 49%nat →
  eps_layout blk1 = eps_layout blk2 → blk1 = blk2.
Proof.
  intros H1 H2 H.
  assert (∀ k, eps_layout blk1 !! k = eps_layout blk2 !! k) as Hk
    by (intros k; by rewrite H).
  pose proof (Hk "timestamp") as [= Ets].
  pose proof (Hk "vboost") as [= Ev0 Ev1 Ev2].
  pose proof (Hk "vbatt") as [= Evb].
  pose proof (Hk "curout") as [= Eo0 Eo1 Eo2 Eo3 Eo4 Eo5 Eo6].
  pose proof (Hk "curin") as [= Ei0 Ei1 Ei2].
  pose proof (Hk "cursun") as [= Esun].
  pose proof (Hk "cursys") as [= Esys].
  pose proof (Hk "temp") as [= Et0 Et1 Et2 Et3 Et4 Et5].
  pose proof (Hk "battmode") as [= Ebm].
  apply be_u32_inj in Ets.
  apply be_u16_inj in Ev0, Ev1, Ev2, Evb, Eo0, Eo1, Eo2, Eo3, Eo4, Eo5, Eo6,
    Ei0, Ei1, Ei2, Esun, Esys.
  apply be_i16_inj in Et0, Et1, Et2, Et3, Et4, Et5.
  repeat match goal with E : _ ∧ _ |- _ => destruct E end.
  apply (octets_eq 49); [done|done|].
  intros i Hi. do 49 (destruct i as [|i]; [assumption|]). lia.
Qed.

(** X10. The [eps] group loses nothing: two frames that decode to the
    same [eps] group carry the same 49 power bytes. *)
Theorem power_group_lossless d1 csp1 crc1 rec1 d2 csp2 crc2 rec2 :
  decode d1 csp1 crc1 = Return rec1 →
  decode d2 csp2 crc2 = Return rec2 →
  rec1 !! "eps" = rec2 !! "eps" →
  slice (payload d1 csp1 crc1) 1 49 = slice (payload d2 csp2 crc2) 1 49.
Proof.
  intros (Hl1 & _ & ->)%decode_Return (Hl2 & _ & ->)%decode_Return H.
  unfold BEACON0_LENGTH in *.
  change (Some (eps_layout (slice (payload d1 csp1 crc1) 1 49))
          = Some (eps_layout (slice (payload d2 csp2 crc2) 1 49))) in H.
  apply (inj Some) in H.
  apply eps_layout_inj; [apply length_slice; lia..|exact H].
Qed.

Lemma all_from_spec n z P :
  Int16.all_from n z P = true → ∀ k, z ≤ k < z + Z.of_nat n → P k = true.
Proof.
  revert z. induction n as [|n IH]; intros z H k Hk; [lia|].
  simpl in H. apply andb_true_iff in H as [Hz Hn].
  destruct (decide (k = z)) as [->|Hne]; [done|].
  apply (IH (z + 1)); [done|lia].
Qed.

Lemma all_int16_spec P :
  Int16.all_int16 P = true → ∀ r, - 2 ^ 15 ≤ r < 2 ^ 15 → P r = true.
Proof.
  intros H r Hr. unfold Int16.all_int16 in H.
  pose proof (Z.div_mod (r + 32768) 256 ltac:(lia)) as Hdm.
  pose proof (Z.mod_pos_bound (r + 32768) 256 ltac:(lia)) as Hm.
  assert (0 ≤ (r + 32768) `div` 256 < 256) as Hd
    by (split; [apply Z.div_pos; lia|apply Z.div_lt_upper_bound; lia]).
  pose proof (all_from_spec _ _ _ H ((r + 32768) `div` 256)
                ltac:(change (Z.of_nat 256) with 256; lia)) as Hhi.
  cbv beta in Hhi.
  pose proof (all_from_spec _ _ _ Hhi ((r + 32768) `mod` 256)
                ltac:(change (Z.of_nat 256) with 256; lia)) as Hlo.
  cbv beta in Hlo.
  replace r with (256 * ((r + 32768) `div` 256) + (r + 32768) `mod` 256 - 32768)
    by lia.
  exact Hlo.
Qed.

(** X11. Scaling a temperature loses nothing either: for every signed
    16-bit raw value [r], the published [r / 10.0] multiplied back by 10.0
    compares equal to [r], lies between -3276.8 and 3276.7, and is below
    the value published for [r + 1]. The six scaled temperatures of a
    decoded frame are such values. *)
Theorem temperature_scaling_exact data csp crc rec :
  decode data csp crc = Return rec →
  (∀ g k,
     (g, k) ∈ [("com", "temp_brd"); ("com", "temp_pa"); ("obc", "temp_a");
               ("obc", "temp_b "); ("adcs", "temp_a"); ("adcs", "temp_b ")] →
     ∃ r, - 2 ^ 15 ≤ r < 2 ^ 15
          ∧ rec !! g ≫= (.!! k) = Some (PFloat (truediv r 10)))
  ∧ (∀ r, - 2 ^ 15 ≤ r < 2 ^ 15 →
       PrimFloat.eqb (PrimFloat.mul (truediv r 10) 10) (float_of_int r) = true
       ∧ Int16.in_bounds r = true
       ∧ PrimFloat.ltb (truediv r 10) (truediv (r + 1) 10) = true).
Proof.
  intros (Hlen & Htag & ->)%decode_Return. split.
  - intros g k Hgk.
    repeat (apply elem_of_cons in Hgk as [[= -> ->]|Hgk]);
      [..|by apply elem_of_nil in Hgk];
      eexists; (split; [apply be_i16_range|reflexivity]).
  - intros r Hr. repeat split.
    + apply (all_int16_spec Int16.scales_back); [vm_compute; reflexivity|done].
    + apply (all_int16_spec Int16.in_bounds); [vm_compute; reflexivity|done].
    + apply (all_int16_spec Int16.steps_up); [vm_compute; reflexivity|done].
Qed.

End Lossless.

(** ** Further properties on concrete frames *)

Section MoreFrames.

Local Open Scope Z_scope.

(** X1, on the golden frame. *)
Lemma comms_group_layout_golden :
  ∃ rec, decode Golden.frame false true = Return rec
    ∧ ∃ g, rec !! "com" = Some g ∧ g !! "last_rssi" = Some (PInt (-59)).
Proof.
  exists (record (payload Golden.frame false true)). split; [reflexivity|].
  eexists. split.
  - refine (proj1 (comms_group_layout Golden.frame false true _ _)).
    reflexivity.
  - reflexivity.
Defined.

(** X2, on the golden frame. *)
Lemma obc_group_layout_golden :
  ∃ rec, decode Golden.frame false true = Return rec
    ∧ ∃ g, rec !! "obc" = Some g ∧ g !! "cur_gssb2" = Some (PInt 1).
Proof.
  exists (record (payload Golden.frame false true)). split; [reflexivity|].
  eexists. split.
  - refine (proj1 (obc_group_layout_at Golden.frame false true _ _)).
    reflexivity.
  - reflexivity.
Defined.

(** X3, on the golden frame. *)
Lemma adcs_group_layout_golden :
  ∃ rec, decode Golden.frame false true = Return rec
    ∧ ∃ g, rec !! "adcs" = Some g ∧ g !! "cur_gps" = Some (PInt 14).
Proof.
  exists (record (payload Golden.frame false true)). split; [reflexivity|].
  eexists. split.
  - refine (proj1 (adcs_group_layout_at Golden.frame false true _ _)).
    reflexivity.
  - reflexivity.
Defined.

(** X4, on the golden frame. *)
Lemma adsb_group_layout_golden :
  ∃ rec, decode Golden.frame false true = Return rec
    ∧ ∃ g, rec !! "adsb" = Some g
           ∧ g !! "last_icao" = Some (PInt 0x4492e1)
           ∧ g !! "last_alt" = Some (PInt 30975).
Proof.
  exists (record (payload Golden.frame false true)). split; [reflexivity|].
  eexists. split.
  - refine (proj1 (adsb_group_layout_at Golden.frame false true _ _)).
    reflexivity.
  - split; reflexivity.
Defined.

(** X7, on the golden frame behind a CSP header: 144 bytes. *)
Lemma decode_input_length_golden :
  length (Golden.csp_header ++ Golden.frame) = (136 + 4 + 4)%nat.
Proof.
  apply (decode_input_length (Golden.csp_header ++ Golden.frame) true true
           (record (payload (Golden.csp_header ++ Golden.frame) true true))).
  reflexivity.
Defined.

(** X8, on two headers that differ in bits 0-13 and 30-31. *)
Lemma header_other_bits_ignored_golden :
  decode (Golden.csp_header ++ Golden.frame) true true
  = decode (Hex.of_string "ffbfa7c2" ++ Golden.frame) true true.
Proof.
  apply (header_other_bits_ignored Golden.csp_header
           (Hex.of_string "ffbfa7c2") Golden.frame true); reflexivity.
Defined.

(** X9, on the golden payload and its CRC. *)
Lemma framing_transparent_golden :
  decode (Golden.csp_header ++ take 136 Golden.frame ++ drop 136 Golden.frame)
    true true
  = decode (take 136 Golden.frame) false false.
Proof.
  refine (proj1 (framing_transparent Golden.csp_header (take 136 Golden.frame)
                   (drop 136 Golden.frame) _ _ _)); reflexivity.
Defined.

(** X10, on the golden frame with and without a CSP header. *)
Lemma power_group_lossless_golden :
  slice (payload Golden.frame false true) 1 49
  = slice (payload (Golden.csp_header ++ Golden.frame) true true) 1 49.
Proof.
  apply (power_group_lossless
           Golden.frame false true (record (payload Golden.frame false true))
           (Golden.csp_header ++ Golden.frame) true true
           (record (payload (Golden.csp_header ++ Golden.frame) true true)));
    reflexivity.
Defined.

(** X11, on the golden frame and the raw value 235. *)
Lemma temperature_scaling_exact_golden :
  PrimFloat.eqb (PrimFloat.mul (truediv 235 10) 10) (float_of_int 235) = true.
Proof.
  refine (proj1 (proj2 (temperature_scaling_exact Golden.frame false true
                          (record (payload Golden.frame false true)) _) 235 _)).
  - reflexivity.
  - lia.
Defined.

End MoreFrames.
